(** * Button debouncer (button_debounce.c): shallow embedding and properties

    The C module debounces up to eight buttons that share one GPIO port.
    It keeps the last MAX_BUTTON_CHECKS normalised port samples in a ring
    [state], indexed by [index], and derives [debouncedState] (bitwise AND
    of the ring) and [changed] (bits that differ from the previous
    debounced state).

    Bytes ([uint8_t]) are integers of [Z]; every conversion of an [int]
    expression back to [uint8_t] is written as [u8].  The array is a
    list, read with [!!] and written with [<[_:=_]>]; an access outside
    the array, and a loop that never ends, make the embedded function
    return [None]. *)

From Stdlib Require Import ZArith Lia Bool.
From stdpp Require Import base option list.

Local Open Scope Z_scope.

(** ** Bytes *)

(** conversion of an [int] value to [uint8_t] *)
Definition u8 (x : Z) : Z := x mod 256.

Definition is_u8 (x : Z) : Prop := 0 <= x < 256.

(** ** The debouncer structure *)

(** Modelled from the spec: the declaration of [tDebouncer] is in
    button_debounce.h, which is not among the sources.  The field names
    are the ones button_debounce.c uses; the spec gives the history as
    [u8; N], the cursor as an unsigned index and the other fields as
    bytes. *)
Record tDebouncer : Type := mkDebouncer {
  state : list Z;
  index : nat;
  debouncedState : Z;
  changed : Z;
  pullType : Z
}.

(** ** Loops over a [uint8_t] counter *)

(** [for (i = i0; i < bound; i++) a = body i a] with [uint8_t i].  The
    counter wraps at 256, so a loop still running after 256 tests of its
    condition never leaves: the fuel then runs out and the result is
    [None].  A body that fails (an access outside the array) gives [None]
    as well. *)
Fixpoint for_u8 {A : Type} (fuel : nat) (bound : nat)
    (body : nat -> A -> option A) (i : nat) (a : A) : option A :=
  match fuel with
  | O => None
  | S fuel' =>
      if decide (i < bound)%nat then
        match body i a with
        | Some a' => for_u8 fuel' bound body ((i + 1) mod 256)%nat a'
        | None => None
        end
      else Some a
  end.

(** number of values of a [uint8_t] counter *)
Definition u8_fuel : nat := 256.

Section Debouncer.

(** Modelled from the spec: the macro MAX_BUTTON_CHECKS (the sample depth
    N of the spec) is defined in button_debounce.h, which is not among
    the sources; it is a parameter here. *)
Variable MAX_BUTTON_CHECKS : nat.

(** ** ButtonDebounceInit *)

(** body of the initialisation loop: [port->state[i] = 0xFF] *)
Definition init_body (i : nat) (st : list Z) : option (list Z) :=
  if decide (i < length st)%nat then Some (<[i := 0xFF]> st) else None.

Definition ButtonDebounceInit (port : tDebouncer) (pulledUpButtons : Z)
    : option tDebouncer :=
  match for_u8 u8_fuel MAX_BUTTON_CHECKS init_body 0 (state port) with
  | Some st =>
      Some {| index := 0;
              debouncedState := 0xFF;
              changed := 0x00;
              pullType := pulledUpButtons;
              state := st |}
  | None => None
  end.

(** ** ButtonProcess *)

(** body of the debounce loop:
    [port->debouncedState = port->debouncedState & port->state[i]] *)
Definition debounce_body (st : list Z) (i : nat) (deb : Z) : option Z :=
  match st !! i with
  | Some v => Some (u8 (Z.land deb v))
  | None => None
  end.

Definition ButtonProcess (port : tDebouncer) (portStatus : Z)
    : option tDebouncer :=
  let lastDebouncedState := debouncedState port in
  let portStatus := u8 (Z.lnot (Z.lxor portStatus (pullType port))) in
  if decide (index port < length (state port))%nat then
    let st := <[index port := portStatus]> (state port) in
    match for_u8 u8_fuel MAX_BUTTON_CHECKS (debounce_body st) 0 0xFF with
    | Some deb =>
        let idx := (index port + 1)%nat in
        let idx := if decide (MAX_BUTTON_CHECKS <= idx)%nat then 0%nat else idx in
        Some {| state := st;
                index := idx;
                debouncedState := deb;
                changed := u8 (Z.lxor deb lastDebouncedState);
                pullType := pullType port |}
    | None => None
    end
  else None.

(** ** Queries *)

Definition ButtonPressed (port : tDebouncer) (GPIOButtonPins : Z) : Z :=
  u8 (Z.land (Z.land (changed port) (Z.lnot (debouncedState port)))
             GPIOButtonPins).

Definition ButtonReleased (port : tDebouncer) (GPIOButtonPins : Z) : Z :=
  u8 (Z.land (Z.land (changed port) (debouncedState port)) GPIOButtonPins).

Definition ButtonDebounceStateGet (port : tDebouncer) : Z :=
  u8 (Z.lnot (Z.lxor (debouncedState port) (pullType port))).

(** ** Sequences of calls *)

(** [ButtonProcess] called once for each sample of [samples], in order *)
Fixpoint process_all (port : tDebouncer) (samples : list Z)
    : option tDebouncer :=
  match samples with
  | [] => Some port
  | s :: rest =>
      match ButtonProcess port s with
      | Some port' => process_all port' rest
      | None => None
      end
  end.

(** [ButtonDebounceInit] followed by one [ButtonProcess] per sample *)
Definition run (port : tDebouncer) (pulledUpButtons : Z) (samples : list Z)
    : option tDebouncer :=
  match ButtonDebounceInit port pulledUpButtons with
  | Some port' => process_all port' samples
  | None => None
  end.

End Debouncer.

(** a structure whose array has four cells of arbitrary content, as the
    caller of [ButtonDebounceInit] provides it when MAX_BUTTON_CHECKS is 4 *)
Definition port4 : tDebouncer :=
  {| state := [0x12; 0x00; 0xA5; 0x7F]; index := 9; debouncedState := 0x33;
     changed := 0x44; pullType := 0x55 |}.

(** a well-formed structure for MAX_BUTTON_CHECKS = 4: bit 0 pulled up and
    debounced as pressed, the cursor on the second slot *)
Definition ring4 : tDebouncer :=
  {| state := [0xFF; 0xFE; 0xFE; 0xFE]; index := 1; debouncedState := 0xFE;
     changed := 0x00; pullType := 0xFF |}.

(** the structure reached, for MAX_BUTTON_CHECKS = 4 and every button
    pulled up, after the samples 0xFE, 0xFF, 0xFF, 0xFF, 0xFD: in the last
    call bit 0 was released and bit 1 was pressed *)
Definition edges4 : tDebouncer :=
  {| state := [0xFD; 0xFF; 0xFF; 0xFF]; index := 1; debouncedState := 0xFD;
     changed := 0x03; pullType := 0xFF |}.

(** ** Well-formed structures *)

(** the array of [port] has MAX_BUTTON_CHECKS cells and the [uint8_t]
    loop counters reach MAX_BUTTON_CHECKS *)
Definition allocated (N : nat) (port : tDebouncer) : Prop :=
  (N <= 255)%nat /\ length (state port) = N.

(** the invariant of the C type and of the cursor *)
Record wf (N : nat) (port : tDebouncer) : Prop := mk_wf {
  wf_depth : (N <= 255)%nat;
  wf_length : length (state port) = N;
  wf_index : (index port < N)%nat;
  wf_debounced : is_u8 (debouncedState port);
  wf_changed : is_u8 (changed port);
  wf_pull : is_u8 (pullType port);
  wf_state : Forall is_u8 (state port)
}.

(** what the debounce loop computes over a whole array *)
Definition and_all (st : list Z) : Z :=
  foldl (fun deb v => u8 (Z.land deb v)) 0xFF st.

(** the normalised sample that [ButtonProcess] stores *)
Definition normalized (pull raw : Z) : Z := u8 (Z.lnot (Z.lxor raw pull)).

(** the ring read from the oldest sample to the newest *)
Definition window (port : tDebouncer) : list Z :=
  drop (index port) (state port) ++ take (index port) (state port).

(** the last [n] elements of a list *)
Definition recent {A : Type} (n : nat) (l : list A) : list A :=
  drop (length l - n) l.

(** the structure that [ButtonProcess] leaves behind *)
Definition processed (N : nat) (port : tDebouncer) (raw : Z) : tDebouncer :=
  let st := <[index port := normalized (pullType port) raw]> (state port) in
  {| state := st;
     index := if decide (N <= index port + 1)%nat then 0%nat
              else (index port + 1)%nat;
     debouncedState := and_all st;
     changed := u8 (Z.lxor (and_all st) (debouncedState port));
     pullType := pullType port |}.

(** the debounced state is the AND of the ring *)
Definition consistent (port : tDebouncer) : Prop :=
  debouncedState port = and_all (state port).

(** From the comment of [ButtonProcess]: a button that is high and pulled down,
    or low and pulled high, is the one the stored sample marks with a 0
    bit. *)
Definition indicates_pressed (pull raw b : Z) : bool :=
  xorb (Z.testbit raw b) (Z.testbit pull b).

(** ** Tactics *)

(** case analysis on the bits that occur in the goal *)
Ltac bool_cases :=
  repeat match goal with
         | |- context [Z.testbit ?x ?i] => destruct (Z.testbit x i)
         | |- context [?i <? 8] => destruct (i <? 8)
         end; try reflexivity; try discriminate.

(** well-formedness of a concrete structure *)
Ltac wf_concrete :=
  constructor; cbn;
  repeat first [ apply Forall_nil | apply Forall_cons; split ];
  unfold is_u8; lia.

(** ** Bytes and bits *)

Lemma u8_testbit x i :
  0 <= i -> Z.testbit (u8 x) i = (i <? 8) && Z.testbit x i.
Proof.
  intros Hi. unfold u8. change 256 with (2 ^ 8).
  apply Z.testbit_mod_pow2. lia.
Qed.

Lemma u8_is_u8 x : is_u8 (u8 x).
Proof. unfold is_u8, u8. apply Z.mod_pos_bound. lia. Qed.

Lemma u8_small x : is_u8 x -> u8 x = x.
Proof. unfold is_u8, u8. intros H. apply Z.mod_small. exact H. Qed.

Lemma is_u8_testbit_high x i : is_u8 x -> 8 <= i -> Z.testbit x i = false.
Proof.
  intros Hx Hi. rewrite <- (u8_small x Hx), u8_testbit by lia.
  replace (i <? 8) with false by (symmetry; apply Z.ltb_ge; lia).
  reflexivity.
Qed.

Lemma u8_lxor a b : is_u8 a -> is_u8 b -> u8 (Z.lxor a b) = Z.lxor a b.
Proof.
  intros Ha Hb. apply Z.bits_inj'. intros i Hi.
  rewrite u8_testbit, Z.lxor_spec by exact Hi.
  destruct (Z.ltb_spec i 8) as [Hlt|Hge]; [reflexivity|].
  rewrite (is_u8_testbit_high a i Ha Hge), (is_u8_testbit_high b i Hb Hge).
  reflexivity.
Qed.

Lemma testbit_255 i : 0 <= i -> Z.testbit 0xFF i = (i <? 8).
Proof.
  intros Hi. change 0xFF with (Z.ones 8).
  destruct (Z.ltb_spec i 8).
  - apply Z.ones_spec_low. lia.
  - apply Z.ones_spec_high. lia.
Qed.

(** ** The loop rule *)

Lemma for_u8_rule {A : Type} (P : nat -> A -> Prop) bound body :
  (bound <= 255)%nat ->
  (forall j a, (j < bound)%nat -> P j a ->
     exists a', body j a = Some a' /\ P (S j) a') ->
  forall fuel i a, (i <= bound)%nat -> (bound - i < fuel)%nat -> P i a ->
  exists a', for_u8 fuel bound body i a = Some a' /\ P bound a'.
Proof.
  intros Hb Hstep. induction fuel as [|fuel IH]; intros i a Hi Hf HP.
  - lia.
  - cbn [for_u8]. destruct (decide (i < bound)%nat) as [Hlt|Hge].
    + destruct (Hstep i a Hlt HP) as (a' & -> & HP').
      replace ((i + 1) mod 256)%nat with (S i)
        by (rewrite Nat.mod_small; lia).
      apply IH; [lia | lia | exact HP'].
    + exists a. split; [reflexivity|].
      replace bound with i by lia. exact HP.
Qed.

(** the initialisation loop fills the array with [0xFF] *)
Lemma init_loop N st :
  (N <= 255)%nat -> length st = N ->
  for_u8 u8_fuel N init_body 0 st = Some (replicate N 0xFF).
Proof.
  intros HN Hlen.
  destruct (for_u8_rule
              (fun j (s : list Z) =>
                 length s = N /\ forall k, (k < j)%nat -> s !! k = Some 0xFF)
              N init_body HN) with (fuel := u8_fuel) (i := 0%nat) (a := st)
    as (st' & -> & Hl & Hall).
  - intros j s Hj [Hls Hs]. unfold init_body.
    destruct (decide (j < length s)%nat) as [_|Hn]; [|lia].
    eexists. split; [reflexivity|]. split.
    + rewrite length_insert. exact Hls.
    + intros k Hk. destruct (decide (k = j)) as [->|Hne].
      * apply list_lookup_insert_eq. lia.
      * rewrite list_lookup_insert_ne by congruence. apply Hs. lia.
  - lia.
  - unfold u8_fuel. lia.
  - split; [exact Hlen | intros k Hk; lia].
  - f_equal. apply list_eq. intros k.
    destruct (decide (k < N)%nat) as [Hk|Hk].
    + rewrite Hall by exact Hk. symmetry. apply lookup_replicate_2. exact Hk.
    + rewrite !lookup_ge_None_2; [reflexivity | |].
      * rewrite length_replicate. lia.
      * lia.
Qed.

(** the debounce loop folds the whole array *)
Lemma debounce_loop N (st : list Z) :
  (N <= 255)%nat -> length st = N ->
  for_u8 u8_fuel N (debounce_body st) 0 0xFF = Some (and_all st).
Proof.
  intros HN Hlen.
  destruct (for_u8_rule
              (fun j deb => deb = and_all (take j st))
              N (debounce_body st) HN) with (fuel := u8_fuel) (i := 0%nat)
                                           (a := 0xFF)
    as (deb & -> & ->).
  - intros j deb Hj ->. unfold debounce_body.
    destruct (lookup_lt_is_Some_2 st j) as [v Hv]; [lia|].
    rewrite Hv. eexists. split; [reflexivity|].
    rewrite (take_S_r _ _ _ Hv). unfold and_all. rewrite foldl_snoc.
    reflexivity.
  - lia.
  - unfold u8_fuel. lia.
  - reflexivity.
  - rewrite take_ge by lia. reflexivity.
Qed.

(** ** The AND of a list of samples, bit by bit *)

Lemma fold_and_testbit (l : list Z) : forall acc b,
  is_u8 acc -> 0 <= b ->
  Z.testbit (foldl (fun deb v => u8 (Z.land deb v)) acc l) b
  = Z.testbit acc b && forallb (fun v => Z.testbit v b) l.
Proof.
  induction l as [|v l IH]; intros acc b Hacc Hb; cbn [foldl forallb].
  - rewrite andb_true_r. reflexivity.
  - rewrite IH by (auto using u8_is_u8).
    rewrite u8_testbit, Z.land_spec by exact Hb.
    destruct (Z.ltb_spec b 8) as [Hlt|Hge].
    + cbn [andb]. rewrite andb_assoc. reflexivity.
    + rewrite (is_u8_testbit_high acc b Hacc Hge). reflexivity.
Qed.

Lemma and_all_testbit (l : list Z) b :
  0 <= b ->
  Z.testbit (and_all l) b = (b <? 8) && forallb (fun v => Z.testbit v b) l.
Proof.
  intros Hb. unfold and_all.
  rewrite fold_and_testbit by (unfold is_u8; lia).
  rewrite testbit_255 by exact Hb. reflexivity.
Qed.

Lemma fold_and_is_u8 (l : list Z) : forall acc,
  is_u8 acc -> is_u8 (foldl (fun deb v => u8 (Z.land deb v)) acc l).
Proof.
  induction l as [|v l IH]; intros acc Hacc; cbn [foldl].
  - exact Hacc.
  - apply IH, u8_is_u8.
Qed.

Lemma and_all_is_u8 (l : list Z) : is_u8 (and_all l).
Proof. apply fold_and_is_u8. unfold is_u8. lia. Qed.

(** the order of the samples does not matter *)
Lemma and_all_app_comm (l1 l2 : list Z) :
  and_all (l1 ++ l2) = and_all (l2 ++ l1).
Proof.
  apply Z.bits_inj'. intros b Hb.
  rewrite !and_all_testbit by exact Hb.
  rewrite !forallb_app. f_equal. apply andb_comm.
Qed.

Lemma forallb_testbit_Forall (l : list Z) b :
  forallb (fun v => Z.testbit v b) l = true
  <-> Forall (fun v => Z.testbit v b = true) l.
Proof.
  rewrite forallb_forall, Forall_forall.
  split; intros H v Hv; apply H; apply list_elem_of_In; exact Hv.
Qed.

(** ** One call of ButtonDebounceInit and of ButtonProcess *)

Lemma ButtonDebounceInit_eq N port pulled :
  allocated N port ->
  ButtonDebounceInit N port pulled
  = Some {| state := replicate N 0xFF; index := 0; debouncedState := 0xFF;
            changed := 0x00; pullType := pulled |}.
Proof.
  intros [HN Hlen]. unfold ButtonDebounceInit.
  rewrite (init_loop N (state port) HN Hlen). reflexivity.
Qed.

Lemma ButtonProcess_eq N port raw :
  wf N port -> ButtonProcess N port raw = Some (processed N port raw).
Proof.
  intros W. unfold ButtonProcess.
  destruct (decide (index port < length (state port))%nat) as [_|Hn].
  - rewrite debounce_loop.
    + reflexivity.
    + exact (wf_depth _ _ W).
    + rewrite length_insert. exact (wf_length _ _ W).
  - exfalso. apply Hn. rewrite (wf_length _ _ W). exact (wf_index _ _ W).
Qed.

Lemma normalized_is_u8 pull raw : is_u8 (normalized pull raw).
Proof. apply u8_is_u8. Qed.

Lemma processed_wf N port raw : wf N port -> wf N (processed N port raw).
Proof.
  intros W. destruct W as [HN Hlen Hidx Hd Hc Hp Hs].
  constructor; cbn.
  - exact HN.
  - rewrite length_insert. exact Hlen.
  - destruct (decide (N <= index port + 1)%nat); lia.
  - apply and_all_is_u8.
  - apply u8_is_u8.
  - exact Hp.
  - apply Forall_insert; [exact Hs | apply normalized_is_u8].
Qed.

Lemma init_wf N pulled :
  (0 < N <= 255)%nat -> is_u8 pulled ->
  wf N {| state := replicate N 0xFF; index := 0; debouncedState := 0xFF;
          changed := 0x00; pullType := pulled |}.
Proof.
  intros HN Hp. constructor; cbn.
  - lia.
  - apply length_replicate.
  - lia.
  - unfold is_u8. lia.
  - unfold is_u8. lia.
  - exact Hp.
  - apply Forall_replicate. unfold is_u8. lia.
Qed.

(** ** The ring as a sliding window *)

Lemma window_length N port : wf N port -> length (window port) = N.
Proof.
  intros W. unfold window.
  rewrite length_app, length_drop, length_take, (wf_length _ _ W).
  pose proof (wf_index _ _ W). lia.
Qed.

(** a call drops the oldest sample and appends the new one *)
Lemma window_processed N port raw :
  wf N port ->
  window (processed N port raw)
  = drop 1 (window port) ++ [normalized (pullType port) raw].
Proof.
  intros W. pose proof (wf_length _ _ W) as Hlen.
  pose proof (wf_index _ _ W) as Hidx.
  unfold window, processed. cbn [state index].
  set (x := normalized (pullType port) raw).
  rewrite drop_app_le by (rewrite length_drop; lia).
  rewrite drop_drop.
  destruct (decide (N <= index port + 1)%nat) as [Hwrap|Hnext].
  - rewrite drop_0, take_0, app_nil_r.
    rewrite (drop_ge (state port)) by lia. cbn [app].
    rewrite insert_take_drop by lia.
    rewrite (drop_ge (state port)) by lia. reflexivity.
  - rewrite drop_insert_lt by lia.
    replace (index port + 1)%nat with (S (index port)) by lia.
    rewrite (take_S_r _ _ x) by (apply list_lookup_insert_eq; lia).
    rewrite take_insert_ge by lia.
    rewrite <- app_assoc. reflexivity.
Qed.

Lemma recent_all {A : Type} n (l : list A) : length l = n -> recent n l = l.
Proof. intros <-. unfold recent. rewrite Nat.sub_diag. apply drop_0. Qed.

Lemma recent_drop_oldest {A : Type} n (l k : list A) x :
  length l = n -> (0 < n)%nat ->
  recent n (drop 1 l ++ x :: k) = recent n (l ++ x :: k).
Proof.
  intros Hl Hn. destruct l as [|a l]; cbn in Hl; [lia|].
  unfold recent. cbn [drop]. rewrite drop_0.
  cbn [app length]. rewrite length_app in *. cbn [length] in *.
  replace (S (length l + S (length k)) - n)%nat
    with (S (length l + S (length k) - n)) by lia.
  reflexivity.
Qed.

Lemma recent_padded {A : Type} n (x : A) (l : list A) :
  recent n (replicate n x ++ l) = replicate (n - length l) x ++ recent n l.
Proof.
  unfold recent. rewrite length_app, length_replicate.
  replace (n + length l - n)%nat with (length l) by lia.
  rewrite drop_app, drop_replicate, length_replicate. reflexivity.
Qed.

Lemma recent_snoc_newest {A : Type} n (l : list A) x :
  (0 < n)%nat -> x ∈ recent n (l ++ [x]).
Proof.
  intros Hn. unfold recent. rewrite length_app. cbn [length].
  rewrite drop_app_le by lia.
  apply elem_of_app. right. apply list_elem_of_singleton. reflexivity.
Qed.

Lemma recent_fmap {A B : Type} (f : A -> B) n (l : list A) :
  recent n (f <$> l) = f <$> recent n l.
Proof. unfold recent. rewrite length_fmap, fmap_drop. reflexivity. Qed.

Lemma and_all_window N port :
  wf N port -> and_all (window port) = and_all (state port).
Proof.
  intros W. unfold window. rewrite and_all_app_comm, take_drop. reflexivity.
Qed.

Lemma and_all_replicate n : and_all (replicate n 0xFF) = 0xFF.
Proof.
  unfold and_all. induction n as [|n IH]; [reflexivity|].
  cbn [replicate foldl]. change (u8 (Z.land 0xFF 0xFF)) with 0xFF. exact IH.
Qed.

(** ** Sequences of calls: what they compute *)

Lemma process_all_spec N (samples : list Z) : forall port,
  wf N port -> consistent port ->
  exists port',
    process_all N port samples = Some port'
    /\ wf N port' /\ consistent port'
    /\ pullType port' = pullType port
    /\ window port'
       = recent N (window port ++ (normalized (pullType port) <$> samples)).
Proof.
  induction samples as [|s rest IH]; intros port W C; cbn [process_all].
  - exists port. split_and!; try assumption; try reflexivity.
    rewrite fmap_nil, app_nil_r, recent_all; [reflexivity|].
    apply (window_length N port W).
  - rewrite (ButtonProcess_eq N port s W).
    destruct (IH (processed N port s)) as (port' & Hrun & W' & C' & Hp & Hw).
    + apply processed_wf, W.
    + reflexivity.
    + exists port'. split_and!; try assumption; try reflexivity.
      rewrite Hw, window_processed by exact W.
      cbn [pullType processed fmap list_fmap].
      rewrite <- app_assoc. cbn [app].
      apply recent_drop_oldest.
      * apply (window_length N port W).
      * pose proof (wf_index _ _ W). lia.
Qed.

Lemma run_spec N port pulled (samples : list Z) :
  allocated N port -> (0 < N)%nat -> is_u8 pulled ->
  exists port',
    run N port pulled samples = Some port'
    /\ wf N port' /\ pullType port' = pulled
    /\ debouncedState port'
       = and_all (replicate (N - length samples) 0xFF
                  ++ (normalized pulled <$> recent N samples)).
Proof.
  intros Ha HN Hp. unfold run.
  rewrite (ButtonDebounceInit_eq N port pulled Ha).
  destruct Ha as [HN' _].
  set (p0 := {| state := replicate N 0xFF; index := 0;
                debouncedState := 0xFF; changed := 0x00;
                pullType := pulled |}).
  assert (W0 : wf N p0) by (apply init_wf; [lia | exact Hp]).
  assert (C0 : consistent p0).
  { unfold consistent, p0. cbn [debouncedState state].
    symmetry. apply and_all_replicate. }
  destruct (process_all_spec N samples p0 W0 C0)
    as (port' & Hrun & W' & C' & Hpull & Hw).
  exists port'. split_and!; try assumption; try reflexivity.
  rewrite C', <- (and_all_window N port' W'), Hw.
  unfold window, p0. cbn [index state pullType].
  rewrite drop_0, take_0, app_nil_r.
  rewrite recent_padded, length_fmap, recent_fmap. reflexivity.
Qed.

(** ** Samples, bit by bit *)

Lemma normalized_testbit pull raw b :
  0 <= b < 8 ->
  Z.testbit (normalized pull raw) b = negb (indicates_pressed pull raw b).
Proof.
  intros [Hb Hb8]. unfold normalized, indicates_pressed.
  rewrite u8_testbit, Z.lnot_spec, Z.lxor_spec by exact Hb.
  replace (b <? 8) with true by (symmetry; apply Z.ltb_lt; exact Hb8).
  reflexivity.
Qed.

Lemma forallb_replicate_255 n b :
  0 <= b < 8 -> forallb (fun v => Z.testbit v b) (replicate n 0xFF) = true.
Proof.
  intros [Hb Hb8]. induction n as [|n IH]; [reflexivity|].
  cbn [replicate forallb]. rewrite IH, testbit_255 by exact Hb.
  rewrite andb_true_r. apply Z.ltb_lt. exact Hb8.
Qed.

(** after any sequence of calls, a debounced bit is 1 exactly when none of
    the last MAX_BUTTON_CHECKS samples indicated a press *)
Lemma run_debounced_bit N port pulled (samples : list Z) b :
  allocated N port -> (0 < N)%nat -> is_u8 pulled -> 0 <= b < 8 ->
  exists port',
    run N port pulled samples = Some port'
    /\ wf N port' /\ pullType port' = pulled
    /\ Z.testbit (debouncedState port') b
       = forallb (fun s => negb (indicates_pressed pulled s b))
                 (recent N samples).
Proof.
  intros Ha HN Hp Hb.
  destruct (run_spec N port pulled samples Ha HN Hp)
    as (port' & Hrun & W & Hpull & Hdeb).
  exists port'. split_and!; try assumption.
  rewrite Hdeb, and_all_testbit by lia.
  replace (b <? 8) with true by (symmetry; apply Z.ltb_lt; lia).
  rewrite forallb_app, forallb_replicate_255 by exact Hb. cbn [andb].
  clear Hdeb. induction (recent N samples) as [|s l IH]; [reflexivity|].
  cbn [fmap list_fmap forallb].
  rewrite normalized_testbit by exact Hb. f_equal. exact IH.
Qed.

(** the AND of the entries of a non-empty array of bytes *)
Lemma foldr_land_testbit (l : list Z) b :
  0 <= b ->
  Z.testbit (foldr Z.land (-1) l) b = forallb (fun v => Z.testbit v b) l.
Proof.
  intros Hb. induction l as [|v l IH]; cbn [foldr forallb].
  - apply Z.bits_m1. exact Hb.
  - rewrite Z.land_spec, IH. reflexivity.
Qed.

Lemma and_all_foldr (l : list Z) :
  l <> [] -> Forall is_u8 l -> and_all l = foldr Z.land (-1) l.
Proof.
  intros Hne Hall. apply Z.bits_inj'. intros b Hb.
  rewrite and_all_testbit, foldr_land_testbit by exact Hb.
  destruct (Z.ltb_spec b 8) as [Hlt|Hge]; [reflexivity|].
  destruct l as [|v l]; [congruence|].
  cbn [forallb andb]. apply Forall_cons in Hall as [Hv _].
  rewrite (is_u8_testbit_high v b Hv Hge). reflexivity.
Qed.

(** ** The edge reports *)

Lemma pressed_testbit port mask b :
  0 <= b ->
  Z.testbit (ButtonPressed port mask) b
  = (b <? 8) && (Z.testbit (changed port) b
                 && negb (Z.testbit (debouncedState port) b)
                 && Z.testbit mask b).
Proof.
  intros Hb. unfold ButtonPressed.
  rewrite u8_testbit, !Z.land_spec, Z.lnot_spec by exact Hb. reflexivity.
Qed.

Lemma released_testbit port mask b :
  0 <= b ->
  Z.testbit (ButtonReleased port mask) b
  = (b <? 8) && (Z.testbit (changed port) b
                 && Z.testbit (debouncedState port) b
                 && Z.testbit mask b).
Proof.
  intros Hb. unfold ButtonReleased.
  rewrite u8_testbit, !Z.land_spec by exact Hb. reflexivity.
Qed.

Lemma state_get_testbit port b :
  0 <= b < 8 ->
  Z.testbit (ButtonDebounceStateGet port) b
  = negb (xorb (Z.testbit (debouncedState port) b)
               (Z.testbit (pullType port) b)).
Proof.
  intros [Hb Hb8]. unfold ButtonDebounceStateGet.
  rewrite u8_testbit, Z.lnot_spec, Z.lxor_spec by exact Hb.
  replace (b <? 8) with true by (symmetry; apply Z.ltb_lt; exact Hb8).
  reflexivity.
Qed.

Lemma pressed_released_disjoint port mask :
  Z.land (ButtonPressed port mask) (ButtonReleased port mask) = 0.
Proof.
  apply Z.bits_inj'. intros b Hb.
  rewrite Z.land_spec, pressed_testbit, released_testbit, Z.bits_0
    by exact Hb.
  bool_cases.
Qed.

(** * The claims *)

(** C7: [ButtonDebounceInit] sets the cursor to 0, the debounced state to
    0xFF, the changed mask to 0x00 and every one of the MAX_BUTTON_CHECKS
    history entries to 0xFF; before the first [ButtonProcess], the
    pressed and released reports are 0 for every mask. *)
Theorem C7_init_state N port pulled :
  allocated N port ->
  exists port',
    ButtonDebounceInit N port pulled = Some port'
    /\ index port' = 0%nat
    /\ debouncedState port' = 0xFF
    /\ changed port' = 0x00
    /\ state port' = replicate N 0xFF
    /\ pullType port' = pulled
    /\ forall mask,
         ButtonPressed port' mask = 0 /\ ButtonReleased port' mask = 0.
Proof.
  intros Ha. rewrite (ButtonDebounceInit_eq N port pulled Ha).
  eexists. split; [reflexivity|].
  cbn [index debouncedState changed state pullType].
  split_and!; try reflexivity.
  intros mask. split; reflexivity.
Qed.

Lemma C7_witness :
  allocated 4 port4
  /\ exists port',
       ButtonDebounceInit 4 port4 0xFF = Some port'
       /\ state port' = [0xFF; 0xFF; 0xFF; 0xFF].
Proof.
  assert (Ha : allocated 4 port4) by (split; [lia | reflexivity]).
  split; [exact Ha|].
  destruct (C7_init_state 4 port4 0xFF Ha)
    as (port' & Hinit & _ & _ & _ & Hst & _).
  exists port'. split; [exact Hinit | exact Hst].
Defined.

(** C6: from every well-formed structure and for every input byte, one
    [ButtonProcess] call returns; it stores NOT (raw XOR pull), as a
    byte, in the slot under the cursor and leaves the other slots alone;
    the new debounced state is the bitwise AND of all the history
    entries; and the changed mask is the new debounced state XOR the
    debounced state held before the call. *)
Theorem C6_process_step N port raw :
  wf N port ->
  exists port',
    ButtonProcess N port raw = Some port'
    /\ (forall b, 0 <= b ->
          Z.testbit (normalized (pullType port) raw) b
          = (b <? 8)
            && negb (xorb (Z.testbit raw b) (Z.testbit (pullType port) b)))
    /\ state port'
       = <[index port := normalized (pullType port) raw]> (state port)
    /\ state port' !! index port = Some (normalized (pullType port) raw)
    /\ debouncedState port' = foldr Z.land (-1) (state port')
    /\ changed port'
       = Z.lxor (debouncedState port') (debouncedState port)
    /\ index port' = ((index port + 1) mod N)%nat
    /\ pullType port' = pullType port.
Proof.
  intros W. rewrite (ButtonProcess_eq N port raw W).
  pose proof (processed_wf N port raw W) as W'.
  pose proof (wf_length _ _ W) as Hlen.
  pose proof (wf_index _ _ W) as Hidx.
  eexists. split; [reflexivity|]. cbn [state index debouncedState changed
                                       pullType processed].
  split_and!.
  - intros b Hb. unfold normalized.
    rewrite u8_testbit, Z.lnot_spec, Z.lxor_spec by exact Hb. reflexivity.
  - reflexivity.
  - apply list_lookup_insert_eq. lia.
  - apply and_all_foldr.
    + intros Hnil. apply (f_equal length) in Hnil.
      rewrite length_insert in Hnil. cbn in Hnil. lia.
    + exact (wf_state _ _ W').
  - apply u8_lxor; [apply and_all_is_u8 | exact (wf_debounced _ _ W)].
  - destruct (decide (N <= index port + 1)%nat) as [Hwrap|Hnext].
    + replace (index port + 1)%nat with N by lia.
      symmetry. apply Nat.Div0.mod_same.
    + symmetry. apply Nat.mod_small. lia.
  - reflexivity.
Qed.

Lemma C6_witness :
  wf 4 ring4
  /\ exists port',
       ButtonProcess 4 ring4 0xFF = Some port'
       /\ state port' = <[1%nat := 0xFF]> [0xFF; 0xFE; 0xFE; 0xFE].
Proof.
  assert (W : wf 4 ring4) by wf_concrete.
  split; [exact W|].
  destruct (C6_process_step 4 ring4 0xFF W)
    as (port' & Hp & _ & Hst & _).
  exists port'. split; [exact Hp | exact Hst].
Defined.

(** C8: for every structure, reachable or not, and every mask, no bit is
    reported both by [ButtonPressed] and by [ButtonReleased]. *)
Theorem C8_pressed_released_exclusive port mask :
  Z.land (ButtonPressed port mask) (ButtonReleased port mask) = 0.
Proof. apply pressed_released_disjoint. Qed.

(** C9: for every structure and every mask, the report for [mask] is the
    report for the full mask 0xFF restricted to [mask], for
    [ButtonPressed] and for [ButtonReleased]. *)
Theorem C9_masking port mask :
  ButtonPressed port mask = Z.land (ButtonPressed port 0xFF) mask
  /\ ButtonReleased port mask = Z.land (ButtonReleased port 0xFF) mask.
Proof.
  split; apply Z.bits_inj'; intros b Hb;
    rewrite Z.land_spec, ?pressed_testbit, ?released_testbit,
      testbit_255 by exact Hb;
    bool_cases.
Qed.

(** C10: for every structure whose changed mask is a byte and every mask,
    the bits reported by [ButtonPressed] or [ButtonReleased] are exactly
    the bits of [changed & mask], and none is reported by both. *)
Theorem C10_changed_partition port mask :
  is_u8 (changed port) ->
  Z.lor (ButtonPressed port mask) (ButtonReleased port mask)
  = Z.land (changed port) mask
  /\ Z.land (ButtonPressed port mask) (ButtonReleased port mask) = 0.
Proof.
  intros Hc. split; [|apply pressed_released_disjoint].
  apply Z.bits_inj'. intros b Hb.
  rewrite Z.lor_spec, Z.land_spec, pressed_testbit, released_testbit
    by exact Hb.
  destruct (Z.ltb_spec b 8) as [Hlt|Hge].
  - bool_cases.
  - rewrite (is_u8_testbit_high _ b Hc Hge). reflexivity.
Qed.

Lemma C10_witness :
  run 4 port4 0xFF [0xFE; 0xFF; 0xFF; 0xFF; 0xFD] = Some edges4
  /\ is_u8 (changed edges4)
  /\ ButtonPressed edges4 0x0F = 0x02
  /\ ButtonReleased edges4 0x0F = 0x01
  /\ Z.lor (ButtonPressed edges4 0x0F) (ButtonReleased edges4 0x0F)
     = Z.land (changed edges4) 0x0F
  /\ Z.land (ButtonPressed edges4 0x0F) (ButtonReleased edges4 0x0F) = 0.
Proof.
  assert (Hc : is_u8 (changed edges4)) by (unfold is_u8; cbn; lia).
  split; [vm_compute; reflexivity|].
  split; [exact Hc|].
  split; [reflexivity|]. split; [reflexivity|].
  exact (C10_changed_partition edges4 0x0F Hc).
Defined.

(** C4 (amended): [ButtonDebounceStateGet] returns NOT (debounced state
    XOR pull configuration) as a byte, which is the electrical sense of
    the port: the bit of a pressed button reads 1 when the bit is
    configured pull-down and 0 when it is configured pull-up, and the bit
    of a button at rest reads as its pull configuration. *)
Theorem C4_state_get_electrical port b :
  0 <= b < 8 ->
  ButtonDebounceStateGet port
  = u8 (Z.lnot (Z.lxor (debouncedState port) (pullType port)))
  /\ Z.testbit (ButtonDebounceStateGet port) b
     = negb (xorb (Z.testbit (debouncedState port) b)
                  (Z.testbit (pullType port) b))
  /\ (Z.testbit (debouncedState port) b = false ->
      Z.testbit (ButtonDebounceStateGet port) b
      = negb (Z.testbit (pullType port) b))
  /\ (Z.testbit (debouncedState port) b = true ->
      Z.testbit (ButtonDebounceStateGet port) b
      = Z.testbit (pullType port) b).
Proof.
  intros Hb. pose proof (state_get_testbit port b Hb) as Hbit.
  split_and!.
  - reflexivity.
  - exact Hbit.
  - intros Hd. rewrite Hbit, Hd. reflexivity.
  - intros Hd. rewrite Hbit, Hd. cbn [xorb]. apply negb_involutive.
Qed.

Lemma C4_witness :
  0 <= 0 < 8
  /\ Z.testbit (ButtonDebounceStateGet ring4) 0
     = negb (xorb (Z.testbit (debouncedState ring4) 0)
                  (Z.testbit (pullType ring4) 0)).
Proof.
  assert (Hb : 0 <= 0 < 8) by lia.
  split; [exact Hb|].
  exact (proj1 (proj2 (C4_state_get_electrical ring4 0 Hb))).
Defined.

(** C4, as stated, fails: with bit 0 configured pull-up and debounced as
    pressed, bit 0 of the returned byte is 0. *)
Lemma C4_counterexample :
  exists port',
    run 4 port4 0xFF [0xFE] = Some port'
    /\ Z.testbit (pullType port') 0 = true
    /\ Z.testbit (debouncedState port') 0 = false
    /\ Z.testbit (ButtonDebounceStateGet port') 0 <> true.
Proof.
  eexists. split; [vm_compute; reflexivity|].
  cbn. split_and!; [reflexivity | reflexivity | discriminate].
Qed.

(** C1 (amended): after every [ButtonProcess] call on a well-formed
    structure, for each of the eight bits, the debounced bit is 1 (at
    rest) exactly when all the MAX_BUTTON_CHECKS history slots have that
    bit 1, and any single history slot with that bit 0 (pressed) forces
    the debounced bit to 0 (pressed). *)
Theorem C1_debounced_invariant N port raw :
  wf N port ->
  exists port',
    ButtonProcess N port raw = Some port'
    /\ length (state port') = N
    /\ forall b, 0 <= b < 8 ->
         (Z.testbit (debouncedState port') b = true
          <-> Forall (fun h => Z.testbit h b = true) (state port'))
         /\ (Exists (fun h => Z.testbit h b = false) (state port')
             -> Z.testbit (debouncedState port') b = false).
Proof.
  intros W. rewrite (ButtonProcess_eq N port raw W).
  eexists. split; [reflexivity|].
  split; [exact (wf_length _ _ (processed_wf N port raw W))|].
  intros b [Hb Hb8].
  set (st := state (processed N port raw)).
  assert (Hiff : Z.testbit (debouncedState (processed N port raw)) b = true
                 <-> Forall (fun h => Z.testbit h b = true) st).
  { cbn [debouncedState processed]. fold st.
    rewrite and_all_testbit by exact Hb.
    replace (b <? 8) with true by (symmetry; apply Z.ltb_lt; exact Hb8).
    cbn [andb]. apply forallb_testbit_Forall. }
  split; [exact Hiff|].
  intros Hex. apply not_true_is_false. intros Hd.
  apply Hiff in Hd. apply Exists_exists in Hex as (h & Hin & Hh).
  rewrite Forall_forall in Hd. specialize (Hd h Hin). congruence.
Qed.

Lemma C1_witness :
  wf 4 ring4
  /\ exists port',
       ButtonProcess 4 ring4 0xFF = Some port'
       /\ length (state port') = 4%nat.
Proof.
  assert (W : wf 4 ring4) by wf_concrete.
  split; [exact W|].
  destruct (C1_debounced_invariant 4 ring4 0xFF W) as (port' & Hp & Hl & _).
  exists port'. split; [exact Hp | exact Hl].
Defined.

(** C1, as stated, fails: after initialisation with every button pulled
    up and one call with raw byte 0xFE, bit 0 of the debounced state is 0
    although three of the four history slots have bit 0 set. *)
Lemma C1_counterexample :
  exists port',
    run 4 port4 0xFF [0xFE] = Some port'
    /\ ~ (forall b, 0 <= b < 8 ->
            (Z.testbit (debouncedState port') b = false
             -> Forall (fun h => Z.testbit h b = false) (state port'))
            /\ (Exists (fun h => Z.testbit h b = true) (state port')
                -> Z.testbit (debouncedState port') b = true)).
Proof.
  eexists. split; [vm_compute; reflexivity|].
  intros H. destruct (H 0 ltac:(lia)) as [_ H2].
  cbn [state debouncedState] in H2.
  assert (Hex : Exists (fun h => Z.testbit h 0 = true)
                       [0xFE; 0xFF; 0xFF; 0xFF]).
  { apply Exists_cons_tl, Exists_cons_hd. reflexivity. }
  specialize (H2 Hex). discriminate H2.
Qed.

(** C2 (amended): for every bit and every sequence of [ButtonProcess]
    calls after [ButtonDebounceInit], the debounced bit is pressed (0)
    exactly when at least one of the last MAX_BUTTON_CHECKS samples (all
    of them when fewer were taken) indicated pressed.  So a single sample
    indicating pressed flips the bit to 0 at once, and the bit is back at
    rest (1) only when the last MAX_BUTTON_CHECKS samples all indicated
    at rest. *)
Theorem C2_window_transitions N port pulled (samples : list Z) b :
  allocated N port -> (0 < N)%nat -> is_u8 pulled -> 0 <= b < 8 ->
  exists port',
    run N port pulled samples = Some port'
    /\ (Z.testbit (debouncedState port') b = false
        <-> Exists (fun s => indicates_pressed pulled s b = true)
                   (recent N samples))
    /\ (Z.testbit (debouncedState port') b = true
        <-> Forall (fun s => indicates_pressed pulled s b = false)
                   (recent N samples))
    /\ (forall pre s, samples = pre ++ [s] ->
          indicates_pressed pulled s b = true ->
          Z.testbit (debouncedState port') b = false).
Proof.
  intros Ha HN Hp Hb.
  destruct (run_debounced_bit N port pulled samples b Ha HN Hp Hb)
    as (port' & Hrun & _ & _ & Hbit).
  exists port'. split; [exact Hrun|].
  assert (Hall : Z.testbit (debouncedState port') b = true
                 <-> Forall (fun s => indicates_pressed pulled s b = false)
                            (recent N samples)).
  { rewrite Hbit, forallb_forall, Forall_forall.
    split; intros H s Hs.
    - apply negb_true_iff, H, list_elem_of_In, Hs.
    - apply negb_true_iff, H, list_elem_of_In, Hs. }
  assert (Hex : Z.testbit (debouncedState port') b = false
                <-> Exists (fun s => indicates_pressed pulled s b = true)
                           (recent N samples)).
  { rewrite <- not_true_iff_false, Hall, <- Exists_Forall_neg.
    - split; intros H; apply (Exists_impl _ _ _ H); intros s Hs;
        apply not_false_iff_true; exact Hs.
    - intros s. destruct (indicates_pressed pulled s b); [right|left];
        congruence. }
  split; [exact Hex|]. split; [exact Hall|].
  intros pre s -> Hs. apply Hex.
  apply Exists_exists. exists s. split; [|exact Hs].
  apply recent_snoc_newest. exact HN.
Qed.

Lemma C2_witness :
  allocated 4 port4 /\ (0 < 4)%nat /\ is_u8 0xFF /\ 0 <= 0 < 8
  /\ exists port',
       run 4 port4 0xFF [0xFF; 0xFE; 0xFF] = Some port'
       /\ (Z.testbit (debouncedState port') 0 = false
           <-> Exists (fun s => indicates_pressed 0xFF s 0 = true)
                      (recent 4 [0xFF; 0xFE; 0xFF])).
Proof.
  assert (Ha : allocated 4 port4) by (split; [lia | reflexivity]).
  assert (HN : (0 < 4)%nat) by lia.
  assert (Hp : is_u8 0xFF) by (unfold is_u8; lia).
  assert (Hb : 0 <= 0 < 8) by lia.
  refine (conj Ha (conj HN (conj Hp (conj Hb _)))).
  destruct (C2_window_transitions 4 port4 0xFF [0xFF; 0xFE; 0xFF] 0
              Ha HN Hp Hb) as (port' & Hrun & Hex & _).
  exists port'. split; [exact Hrun | exact Hex].
Defined.

(** C2, as stated, fails with MAX_BUTTON_CHECKS = 4 and every button
    pulled up: one isolated sample indicating pressed (0xFE, fewer than
    four in a row) already flips bit 0 to pressed, and after four pressed
    samples a single sample indicating at rest (0xFF) does not bring
    bit 0 back to 1. *)
Lemma C2_counterexample :
  (exists port',
     run 4 port4 0xFF [0xFF; 0xFE] = Some port'
     /\ indicates_pressed 0xFF 0xFF 0 = false
     /\ indicates_pressed 0xFF 0xFE 0 = true
     /\ Z.testbit (debouncedState port') 0 = false)
  /\ (exists port',
        run 4 port4 0xFF [0xFE; 0xFE; 0xFE; 0xFE; 0xFF] = Some port'
        /\ indicates_pressed 0xFF 0xFF 0 = false
        /\ Z.testbit (debouncedState port') 0 <> true).
Proof.
  split.
  - eexists. split; [vm_compute; reflexivity|].
    split_and!; reflexivity.
  - eexists. split; [vm_compute; reflexivity|].
    split; [reflexivity | discriminate].
Qed.

(** C3 (amended): with MAX_BUTTON_CHECKS = 4 and pull configuration 0xFF,
    starting from [ButtonDebounceInit]: the first call with raw byte 0xFE
    already reports the press ([ButtonPressed] 0xFF = 0x01); after four
    calls with 0xFE the debounced state is 0xFE,
    [ButtonDebounceStateGet] returns 0xFE, and [ButtonPressed] 0xFF and
    [ButtonReleased] 0xFF both return 0x00; after one further call with
    0xFF the debounced state is still 0xFE and [ButtonReleased] 0xFF
    returns 0x00; after four calls with 0xFF in a row the debounced state
    is 0xFF and [ButtonReleased] 0xFF returns 0x01. *)
Theorem C3_scenario port :
  allocated 4 port ->
  exists p1 p4 p5 p8,
    run 4 port 0xFF [0xFE] = Some p1
    /\ debouncedState p1 = 0xFE
    /\ ButtonPressed p1 0xFF = 0x01
    /\ run 4 port 0xFF [0xFE; 0xFE; 0xFE; 0xFE] = Some p4
    /\ debouncedState p4 = 0xFE
    /\ ButtonDebounceStateGet p4 = 0xFE
    /\ ButtonPressed p4 0xFF = 0x00
    /\ ButtonReleased p4 0xFF = 0x00
    /\ run 4 port 0xFF [0xFE; 0xFE; 0xFE; 0xFE; 0xFF] = Some p5
    /\ debouncedState p5 = 0xFE
    /\ ButtonReleased p5 0xFF = 0x00
    /\ run 4 port 0xFF [0xFE; 0xFE; 0xFE; 0xFE; 0xFF; 0xFF; 0xFF; 0xFF]
       = Some p8
    /\ debouncedState p8 = 0xFF
    /\ ButtonReleased p8 0xFF = 0x01.
Proof.
  intros Ha. unfold run.
  rewrite (ButtonDebounceInit_eq 4 port 0xFF Ha).
  do 4 eexists.
  split; [vm_compute; reflexivity|].
  split; [reflexivity|]. split; [reflexivity|].
  split; [vm_compute; reflexivity|].
  split; [reflexivity|]. split; [reflexivity|].
  split; [reflexivity|]. split; [reflexivity|].
  split; [vm_compute; reflexivity|].
  split; [reflexivity|]. split; [reflexivity|].
  split; [vm_compute; reflexivity|].
  split; reflexivity.
Qed.

Lemma C3_witness :
  allocated 4 port4
  /\ exists p4,
       run 4 port4 0xFF [0xFE; 0xFE; 0xFE; 0xFE] = Some p4
       /\ ButtonDebounceStateGet p4 = 0xFE.
Proof.
  assert (Ha : allocated 4 port4) by (split; [lia | reflexivity]).
  split; [exact Ha|].
  destruct (C3_scenario port4 Ha)
    as (_ & p4 & _ & _ & _ & _ & _ & H4 & _ & Hget & _).
  exists p4. split; [exact H4 | exact Hget].
Defined.

(** C3, as stated, fails: after the four calls with 0xFE,
    [ButtonDebounceStateGet] returns 0xFE and [ButtonPressed] 0xFF
    returns 0x00; after the further call with 0xFF the debounced state is
    0xFE and [ButtonReleased] 0xFF returns 0x00. *)
Lemma C3_counterexample :
  exists p4 p5,
    run 4 port4 0xFF [0xFE; 0xFE; 0xFE; 0xFE] = Some p4
    /\ run 4 port4 0xFF [0xFE; 0xFE; 0xFE; 0xFE; 0xFF] = Some p5
    /\ ButtonDebounceStateGet p4 <> 0x01
    /\ ButtonPressed p4 0xFF <> 0x01
    /\ debouncedState p5 <> 0xFF
    /\ ButtonReleased p5 0xFF <> 0x01.
Proof.
  do 2 eexists.
  split; [vm_compute; reflexivity|].
  split; [vm_compute; reflexivity|].
  split_and!; discriminate.
Qed.

(** C5 (amended): let one instance have bit [b] configured pull-up and
    another have it configured pull-down, and feed the second the samples
    of the first with bit [b] inverted.  After each corresponding call the
    two debounced states agree on bit [b], and the two
    [ButtonDebounceStateGet] outputs are complementary on bit [b]. *)
Theorem C5_pull_symmetry N portA portB pullA pullB
    (samplesA samplesB : list Z) b :
  allocated N portA -> allocated N portB -> (0 < N)%nat ->
  is_u8 pullA -> is_u8 pullB -> 0 <= b < 8 ->
  Z.testbit pullA b = true -> Z.testbit pullB b = false ->
  Forall2 (fun x y => Z.testbit y b = negb (Z.testbit x b))
          samplesA samplesB ->
  exists pa pb,
    run N portA pullA samplesA = Some pa
    /\ run N portB pullB samplesB = Some pb
    /\ Z.testbit (debouncedState pa) b = Z.testbit (debouncedState pb) b
    /\ Z.testbit (ButtonDebounceStateGet pa) b
       = negb (Z.testbit (ButtonDebounceStateGet pb) b).
Proof.
  intros HaA HaB HN HpA HpB Hb HupA HdownB Hinv.
  destruct (run_debounced_bit N portA pullA samplesA b HaA HN HpA Hb)
    as (pa & HrunA & _ & HpullA & HbitA).
  destruct (run_debounced_bit N portB pullB samplesB b HaB HN HpB Hb)
    as (pb & HrunB & _ & HpullB & HbitB).
  exists pa, pb. split; [exact HrunA|]. split; [exact HrunB|].
  assert (Hdeb : Z.testbit (debouncedState pa) b
                 = Z.testbit (debouncedState pb) b).
  { rewrite HbitA, HbitB. unfold recent.
    rewrite (Forall2_length _ _ _ Hinv).
    pose proof (Forall2_drop _ _ _ (length samplesB - N) Hinv) as Hd.
    induction Hd as [|x y l k Hxy _ IH]; [reflexivity|].
    cbn [forallb]. rewrite IH. f_equal.
    unfold indicates_pressed. rewrite Hxy, HupA, HdownB.
    destruct (Z.testbit x b); reflexivity. }
  split; [exact Hdeb|].
  rewrite !state_get_testbit by exact Hb.
  rewrite HpullA, HpullB, HupA, HdownB, Hdeb.
  destruct (Z.testbit (debouncedState pb) b); reflexivity.
Qed.

Lemma C5_witness :
  allocated 4 port4 /\ allocated 4 ring4 /\ (0 < 4)%nat
  /\ is_u8 0xFF /\ is_u8 0x00 /\ 0 <= 0 < 8
  /\ Z.testbit 0xFF 0 = true /\ Z.testbit 0x00 0 = false
  /\ Forall2 (fun x y => Z.testbit y 0 = negb (Z.testbit x 0))
             [0xFE; 0xFF] [0x01; 0x00]
  /\ exists pa pb,
       run 4 port4 0xFF [0xFE; 0xFF] = Some pa
       /\ run 4 ring4 0x00 [0x01; 0x00] = Some pb
       /\ Z.testbit (debouncedState pa) 0 = Z.testbit (debouncedState pb) 0
       /\ Z.testbit (ButtonDebounceStateGet pa) 0
          = negb (Z.testbit (ButtonDebounceStateGet pb) 0).
Proof.
  assert (HaA : allocated 4 port4) by (split; [lia | reflexivity]).
  assert (HaB : allocated 4 ring4) by (split; [lia | reflexivity]).
  assert (HN : (0 < 4)%nat) by lia.
  assert (HpA : is_u8 0xFF) by (unfold is_u8; lia).
  assert (HpB : is_u8 0x00) by (unfold is_u8; lia).
  assert (Hb : 0 <= 0 < 8) by lia.
  assert (Hup : Z.testbit 0xFF 0 = true) by reflexivity.
  assert (Hdown : Z.testbit 0x00 0 = false) by reflexivity.
  assert (Hinv : Forall2 (fun x y => Z.testbit y 0 = negb (Z.testbit x 0))
                         [0xFE; 0xFF] [0x01; 0x00])
    by (repeat constructor).
  refine (conj HaA (conj HaB (conj HN (conj HpA (conj HpB (conj Hb
            (conj Hup (conj Hdown (conj Hinv _))))))))).
  exact (C5_pull_symmetry 4 port4 ring4 0xFF 0x00 [0xFE; 0xFF] [0x01; 0x00] 0
           HaA HaB HN HpA HpB Hb Hup Hdown Hinv).
Defined.

(** C5, as stated, fails: with every bit pulled up and the sample 0xFF,
    [ButtonDebounceStateGet] returns 0xFF; with every bit pulled down and
    the inverted sample 0x00, it returns 0x00. *)
Lemma C5_counterexample :
  exists pa pb,
    run 4 port4 0xFF [0xFF] = Some pa
    /\ run 4 port4 0x00 [Z.lxor 0xFF 0xFF] = Some pb
    /\ Z.testbit (0xFF) 0 = true
    /\ Z.testbit (0x00) 0 = false
    /\ ButtonDebounceStateGet pa <> ButtonDebounceStateGet pb
    /\ Z.testbit (ButtonDebounceStateGet pa) 0
       <> Z.testbit (ButtonDebounceStateGet pb) 0.
Proof.
  do 2 eexists.
  split; [vm_compute; reflexivity|].
  split; [vm_compute; reflexivity|].
  split_and!; [reflexivity | reflexivity | discriminate | discriminate].
Qed.

(** * Further properties of the ring and of the edge reports *)

(** ** Auxiliary facts *)

Lemma processed_index N port raw :
  wf N port -> index (processed N port raw) = ((index port + 1) mod N)%nat.
Proof.
  intros W. pose proof (wf_index _ _ W) as Hidx. cbn [index processed].
  destruct (decide (N <= index port + 1)%nat) as [Hwrap|Hnext].
  - replace (index port + 1)%nat with N by lia.
    symmetry. apply Nat.Div0.mod_same.
  - symmetry. apply Nat.mod_small. lia.
Qed.

(** any number of calls from a well-formed structure, whatever its
    debounced state was *)
Lemma process_all_from_wf N (samples : list Z) : forall port,
  wf N port ->
  exists port',
    process_all N port samples = Some port'
    /\ wf N port'
    /\ pullType port' = pullType port
    /\ index port' = ((index port + length samples) mod N)%nat
    /\ window port'
       = recent N (window port ++ (normalized (pullType port) <$> samples))
    /\ (samples <> [] -> consistent port').
Proof.
  induction samples as [|s rest IH]; intros port W; cbn [process_all].
  - exists port. split_and!; try assumption; try reflexivity.
    + rewrite Nat.add_0_r. symmetry. apply Nat.mod_small.
      exact (wf_index _ _ W).
    + rewrite fmap_nil, app_nil_r, recent_all; [reflexivity|].
      apply (window_length N port W).
    + intros Hne. congruence.
  - rewrite (ButtonProcess_eq N port s W).
    destruct (IH (processed N port s) (processed_wf N port s W))
      as (port' & Hrun & W' & Hp & Hi & Hw & Hc).
    exists port'. split_and!; try assumption.
    + rewrite Hi, (processed_index N port s W), Nat.Div0.add_mod_idemp_l.
      cbn [length]. f_equal. lia.
    + rewrite Hw, window_processed by exact W.
      cbn [pullType processed fmap list_fmap].
      rewrite <- app_assoc. cbn [app].
      apply recent_drop_oldest.
      * apply (window_length N port W).
      * pose proof (wf_index _ _ W). lia.
    + intros _. destruct rest as [|r rest'].
      * cbn in Hrun. injection Hrun as <-. reflexivity.
      * apply Hc. congruence.
Qed.

Lemma run_from_init N port pulled (samples : list Z) :
  allocated N port -> (0 < N)%nat -> is_u8 pulled ->
  exists port',
    run N port pulled samples = Some port'
    /\ wf N port'
    /\ index port' = (length samples mod N)%nat
    /\ window port'
       = replicate (N - length samples) 0xFF
         ++ (normalized pulled <$> recent N samples).
Proof.
  intros Ha HN Hp. unfold run.
  rewrite (ButtonDebounceInit_eq N port pulled Ha).
  destruct Ha as [HN' _].
  set (p0 := {| state := replicate N 0xFF; index := 0;
                debouncedState := 0xFF; changed := 0x00;
                pullType := pulled |}).
  assert (W0 : wf N p0) by (apply init_wf; [lia | exact Hp]).
  destruct (process_all_from_wf N samples p0 W0)
    as (port' & Hrun & W' & _ & Hi & Hw & _).
  exists port'. split_and!; try assumption.
  rewrite Hw. unfold window, p0. cbn [index state pullType].
  rewrite drop_0, take_0, app_nil_r.
  rewrite recent_padded, length_fmap, recent_fmap. reflexivity.
Qed.

Lemma recent_app_ge {A : Type} n (l k : list A) :
  (n <= length k)%nat -> recent n (l ++ k) = recent n k.
Proof.
  intros Hn. unfold recent. rewrite length_app.
  rewrite drop_app_ge by lia. f_equal. lia.
Qed.

Lemma and_all_bit_false (l : list Z) x b :
  0 <= b -> x ∈ l -> Z.testbit x b = false ->
  Z.testbit (and_all l) b = false.
Proof.
  intros Hb Hin Hx. rewrite and_all_testbit by exact Hb.
  apply andb_false_iff. right. apply not_true_is_false. intros Hall.
  apply forallb_testbit_Forall in Hall. rewrite Forall_forall in Hall.
  specialize (Hall x Hin). congruence.
Qed.

Lemma forallb_replicate {A : Type} (f : A -> bool) n x :
  (0 < n)%nat -> forallb f (replicate n x) = f x.
Proof.
  intros Hn. destruct n as [|n]; [lia|]. clear Hn.
  induction n as [|n IH]; cbn [replicate forallb].
  - apply andb_true_r.
  - cbn [replicate forallb] in IH. rewrite IH. apply andb_diag.
Qed.

Lemma and_all_replicate_byte n x :
  (0 < n)%nat -> is_u8 x -> and_all (replicate n x) = x.
Proof.
  intros Hn Hx. apply Z.bits_inj'. intros b Hb.
  rewrite and_all_testbit, forallb_replicate by assumption.
  destruct (Z.ltb_spec b 8) as [Hlt|Hge]; [reflexivity|].
  rewrite (is_u8_testbit_high x b Hx Hge). reflexivity.
Qed.

(** undoing the normalisation of a byte gives the byte back *)
Lemma denormalize_normalized pull raw :
  is_u8 raw -> u8 (Z.lnot (Z.lxor (normalized pull raw) pull)) = raw.
Proof.
  intros Hr. apply Z.bits_inj'. intros b Hb. unfold normalized.
  rewrite !u8_testbit, !Z.lnot_spec, !Z.lxor_spec by exact Hb.
  rewrite u8_testbit, Z.lnot_spec, Z.lxor_spec by exact Hb.
  destruct (Z.ltb_spec b 8) as [Hlt|Hge].
  - cbn [andb]. destruct (Z.testbit raw b), (Z.testbit pull b); reflexivity.
  - rewrite (is_u8_testbit_high raw b Hr Hge). reflexivity.
Qed.

Lemma changed_testbit N port raw b :
  0 <= b < 8 ->
  Z.testbit (changed (processed N port raw)) b
  = xorb (Z.testbit (debouncedState (processed N port raw)) b)
         (Z.testbit (debouncedState port) b).
Proof.
  intros [Hb Hb8]. cbn [changed debouncedState processed].
  rewrite u8_testbit, Z.lxor_spec by exact Hb.
  replace (b <? 8) with true by (symmetry; apply Z.ltb_lt; exact Hb8).
  reflexivity.
Qed.

(** ** The cursor and the contents of the ring *)

(** X1: after [ButtonDebounceInit] and any number of [ButtonProcess]
    calls, the cursor is the number of calls modulo MAX_BUTTON_CHECKS; it
    stays inside the array, whose size does not change. *)
Theorem X1_cursor_counts_calls N port pulled (samples : list Z) :
  allocated N port -> (0 < N)%nat -> is_u8 pulled ->
  exists port',
    run N port pulled samples = Some port'
    /\ index port' = (length samples mod N)%nat
    /\ (index port' < N)%nat
    /\ length (state port') = N.
Proof.
  intros Ha HN Hp.
  destruct (run_from_init N port pulled samples Ha HN Hp)
    as (port' & Hrun & W & Hi & _).
  exists port'. split_and!; try assumption.
  - exact (wf_index _ _ W).
  - exact (wf_length _ _ W).
Qed.

Lemma X1_witness :
  allocated 4 port4 /\ (0 < 4)%nat /\ is_u8 0xFF
  /\ exists port',
       run 4 port4 0xFF [0xFE; 0xFE; 0xFF; 0xFF; 0xFE; 0xFF] = Some port'
       /\ index port' = 2%nat.
Proof.
  assert (Ha : allocated 4 port4) by (split; [lia | reflexivity]).
  assert (HN : (0 < 4)%nat) by lia.
  assert (Hp : is_u8 0xFF) by (unfold is_u8; lia).
  refine (conj Ha (conj HN (conj Hp _))).
  destruct (X1_cursor_counts_calls 4 port4 0xFF
              [0xFE; 0xFE; 0xFF; 0xFF; 0xFE; 0xFF] Ha HN Hp)
    as (port' & Hrun & Hi & _).
  exists port'. split; [exact Hrun | exact Hi].
Defined.

(** X2: after [ButtonDebounceInit] and any number of [ButtonProcess]
    calls, the ring read from the cursor on holds the normalised forms of
    the last MAX_BUTTON_CHECKS samples in their order of arrival, preceded
    by 0xFF entries while fewer samples than that were taken. *)
Theorem X2_ring_holds_last_samples N port pulled (samples : list Z) :
  allocated N port -> (0 < N)%nat -> is_u8 pulled ->
  exists port',
    run N port pulled samples = Some port'
    /\ drop (index port') (state port') ++ take (index port') (state port')
       = replicate (N - length samples) 0xFF
         ++ (normalized pulled <$> recent N samples).
Proof.
  intros Ha HN Hp.
  destruct (run_from_init N port pulled samples Ha HN Hp)
    as (port' & Hrun & _ & _ & Hw).
  exists port'. split; [exact Hrun | exact Hw].
Qed.

Lemma X2_witness :
  allocated 4 port4 /\ (0 < 4)%nat /\ is_u8 0xFF
  /\ exists port',
       run 4 port4 0xFF [0xFE; 0xFD; 0xFB; 0xF7; 0xEF; 0xDF] = Some port'
       /\ drop (index port') (state port') ++ take (index port') (state port')
          = [0xFB; 0xF7; 0xEF; 0xDF].
Proof.
  assert (Ha : allocated 4 port4) by (split; [lia | reflexivity]).
  assert (HN : (0 < 4)%nat) by lia.
  assert (Hp : is_u8 0xFF) by (unfold is_u8; lia).
  refine (conj Ha (conj HN (conj Hp _))).
  destruct (X2_ring_holds_last_samples 4 port4 0xFF
              [0xFE; 0xFD; 0xFB; 0xF7; 0xEF; 0xDF] Ha HN Hp)
    as (port' & Hrun & Hw).
  exists port'. split; [exact Hrun | exact Hw].
Defined.

(** X3: the debouncer remembers MAX_BUTTON_CHECKS samples and no more:
    after at least that many [ButtonProcess] calls, two well-formed
    structures with the same pull configuration fed the same samples have
    the same window and the same debounced state, which is the AND of the
    normalised last MAX_BUTTON_CHECKS samples, whatever the structures
    held before. *)
Theorem X3_depth_of_memory N p1 p2 (samples : list Z) :
  wf N p1 -> wf N p2 -> pullType p1 = pullType p2 ->
  (N <= length samples)%nat ->
  exists p1' p2',
    process_all N p1 samples = Some p1'
    /\ process_all N p2 samples = Some p2'
    /\ window p1' = (normalized (pullType p1) <$> recent N samples)
    /\ window p2' = window p1'
    /\ debouncedState p1'
       = and_all (normalized (pullType p1) <$> recent N samples)
    /\ debouncedState p2' = debouncedState p1'.
Proof.
  intros W1 W2 Hpull Hlen.
  assert (Hne : samples <> []).
  { intros ->. pose proof (wf_index _ _ W1). cbn in Hlen. lia. }
  destruct (process_all_from_wf N samples p1 W1)
    as (p1' & Hr1 & W1' & _ & _ & Hw1 & Hc1).
  destruct (process_all_from_wf N samples p2 W2)
    as (p2' & Hr2 & W2' & _ & _ & Hw2 & Hc2).
  rewrite recent_app_ge, recent_fmap in Hw1 by (rewrite length_fmap; lia).
  rewrite recent_app_ge, recent_fmap, <- Hpull in Hw2
    by (rewrite length_fmap; lia).
  exists p1', p2'. split_and!; try assumption.
  - congruence.
  - rewrite (Hc1 Hne), <- (and_all_window N p1' W1'), Hw1. reflexivity.
  - rewrite (Hc1 Hne), (Hc2 Hne), <- (and_all_window N p1' W1'),
      <- (and_all_window N p2' W2'). congruence.
Qed.

Lemma X3_witness :
  wf 4 ring4
  /\ wf 4 {| state := [0x00; 0x01; 0x02; 0x03]; index := 3;
             debouncedState := 0x55; changed := 0x0F; pullType := 0xFF |}
  /\ (4 <= length [0xFE; 0xFF; 0xFF; 0xFD; 0xFF])%nat
  /\ exists p1' p2',
       process_all 4 ring4 [0xFE; 0xFF; 0xFF; 0xFD; 0xFF] = Some p1'
       /\ process_all 4
            {| state := [0x00; 0x01; 0x02; 0x03]; index := 3;
               debouncedState := 0x55; changed := 0x0F; pullType := 0xFF |}
            [0xFE; 0xFF; 0xFF; 0xFD; 0xFF] = Some p2'
       /\ debouncedState p2' = debouncedState p1'.
Proof.
  assert (W1 : wf 4 ring4) by wf_concrete.
  assert (W2 : wf 4 {| state := [0x00; 0x01; 0x02; 0x03]; index := 3;
                       debouncedState := 0x55; changed := 0x0F;
                       pullType := 0xFF |}) by wf_concrete.
  assert (Hlen : (4 <= length [0xFE; 0xFF; 0xFF; 0xFD; 0xFF])%nat)
    by (cbn; lia).
  refine (conj W1 (conj W2 (conj Hlen _))).
  destruct (X3_depth_of_memory 4 ring4 _ [0xFE; 0xFF; 0xFF; 0xFD; 0xFF]
              W1 W2 eq_refl Hlen)
    as (p1' & p2' & H1 & H2 & _ & _ & _ & Hd).
  exists p1', p2'. split; [exact H1|]. split; [exact H2 | exact Hd].
Defined.

(** X4: MAX_BUTTON_CHECKS calls of [ButtonProcess] with one and the same
    raw byte, from any well-formed structure, leave the normalised form of
    that byte as debounced state, and [ButtonDebounceStateGet] then
    returns the raw byte itself. *)
Theorem X4_steady_input N port raw :
  wf N port -> is_u8 raw ->
  exists port',
    process_all N port (replicate N raw) = Some port'
    /\ debouncedState port' = normalized (pullType port) raw
    /\ ButtonDebounceStateGet port' = raw.
Proof.
  intros W Hr. pose proof (wf_index _ _ W) as Hidx.
  destruct (process_all_from_wf N (replicate N raw) port W)
    as (port' & Hrun & W' & Hp & _ & Hw & Hc).
  assert (Hd : debouncedState port' = normalized (pullType port) raw).
  { rewrite Hc by (destruct N; [lia | discriminate]).
    rewrite <- (and_all_window N port' W'), Hw.
    rewrite recent_app_ge by (rewrite length_fmap, length_replicate; lia).
    rewrite recent_all by (rewrite length_fmap, length_replicate; lia).
    rewrite fmap_replicate.
    apply and_all_replicate_byte; [lia | apply normalized_is_u8]. }
  exists port'. split; [exact Hrun|]. split; [exact Hd|].
  unfold ButtonDebounceStateGet. rewrite Hd, Hp.
  apply denormalize_normalized. exact Hr.
Qed.

Lemma X4_witness :
  wf 4 ring4 /\ is_u8 0x3C
  /\ exists port',
       process_all 4 ring4 (replicate 4 0x3C) = Some port'
       /\ ButtonDebounceStateGet port' = 0x3C.
Proof.
  assert (W : wf 4 ring4) by wf_concrete.
  assert (Hr : is_u8 0x3C) by (unfold is_u8; lia).
  refine (conj W (conj Hr _)).
  destruct (X4_steady_input 4 ring4 0x3C W Hr) as (port' & Hrun & _ & Hg).
  exists port'. split; [exact Hrun | exact Hg].
Defined.

(** ** Edges *)

(** X5: after a [ButtonProcess] call on a well-formed structure,
    [ButtonPressed] reports a bit exactly when the bit is in the mask and
    its debounced value went from 1 to 0 in this call, and
    [ButtonReleased] reports it exactly when it is in the mask and its
    debounced value went from 0 to 1 in this call. *)
Theorem X5_edges_compare_before_and_after N port raw :
  wf N port ->
  exists port',
    ButtonProcess N port raw = Some port'
    /\ forall mask b, 0 <= b < 8 ->
         (Z.testbit (ButtonPressed port' mask) b = true
          <-> Z.testbit mask b = true
              /\ Z.testbit (debouncedState port) b = true
              /\ Z.testbit (debouncedState port') b = false)
         /\ (Z.testbit (ButtonReleased port' mask) b = true
             <-> Z.testbit mask b = true
                 /\ Z.testbit (debouncedState port) b = false
                 /\ Z.testbit (debouncedState port') b = true).
Proof.
  intros W. rewrite (ButtonProcess_eq N port raw W).
  eexists. split; [reflexivity|]. intros mask b Hb.
  rewrite pressed_testbit, released_testbit, changed_testbit by lia.
  replace (b <? 8) with true by (symmetry; apply Z.ltb_lt; lia).
  destruct (Z.testbit mask b), (Z.testbit (debouncedState port) b),
    (Z.testbit (debouncedState (processed N port raw)) b);
    cbn; intuition congruence.
Qed.

Lemma X5_witness :
  wf 4 ring4
  /\ exists port',
       ButtonProcess 4 ring4 0xFD = Some port'
       /\ (Z.testbit (ButtonPressed port' 0xFF) 1 = true
           <-> Z.testbit 0xFF 1 = true
               /\ Z.testbit (debouncedState ring4) 1 = true
               /\ Z.testbit (debouncedState port') 1 = false).
Proof.
  assert (W : wf 4 ring4) by wf_concrete.
  split; [exact W|].
  destruct (X5_edges_compare_before_and_after 4 ring4 0xFD W)
    as (port' & Hp & Hedge).
  exists port'. split; [exact Hp|].
  exact (proj1 (Hedge 0xFF 1 ltac:(lia))).
Defined.

(** X6: after a [ButtonProcess] call on a well-formed structure, the
    changed mask is zero exactly when the debounced state is the one held
    before the call, and then [ButtonPressed] and [ButtonReleased] return
    0 for every mask. *)
Theorem X6_no_edge_without_change N port raw :
  wf N port ->
  exists port',
    ButtonProcess N port raw = Some port'
    /\ (changed port' = 0 <-> debouncedState port' = debouncedState port)
    /\ (debouncedState port' = debouncedState port ->
        forall mask,
          ButtonPressed port' mask = 0 /\ ButtonReleased port' mask = 0).
Proof.
  intros W. rewrite (ButtonProcess_eq N port raw W).
  eexists. split; [reflexivity|].
  assert (Hiff : changed (processed N port raw) = 0
                 <-> debouncedState (processed N port raw)
                     = debouncedState port).
  { cbn [changed debouncedState processed].
    rewrite u8_lxor by (apply and_all_is_u8 || exact (wf_debounced _ _ W)).
    apply Z.lxor_eq_0_iff. }
  split; [exact Hiff|].
  intros Hsame mask. apply Hiff in Hsame.
  unfold ButtonPressed, ButtonReleased. rewrite Hsame.
  split; reflexivity.
Qed.

Lemma X6_witness :
  wf 4 ring4
  /\ exists port',
       ButtonProcess 4 ring4 0xFE = Some port'
       /\ (changed port' = 0
           <-> debouncedState port' = debouncedState ring4).
Proof.
  assert (W : wf 4 ring4) by wf_concrete.
  split; [exact W|].
  destruct (X6_no_edge_without_change 4 ring4 0xFE W)
    as (port' & Hp & Hiff & _).
  exists port'. split; [exact Hp | exact Hiff].
Defined.

(** X7: from any well-formed structure, one [ButtonProcess] call with a
    sample that indicates pressed on a bit makes the debounced bit 0 in
    that very call; if the bit was debounced as at rest before, that call
    is the one in which [ButtonPressed] reports it, for every mask that
    holds the bit. *)
Theorem X7_press_is_immediate N port raw b :
  wf N port -> 0 <= b < 8 ->
  indicates_pressed (pullType port) raw b = true ->
  exists port',
    ButtonProcess N port raw = Some port'
    /\ Z.testbit (debouncedState port') b = false
    /\ forall mask,
         Z.testbit (debouncedState port) b = true ->
         Z.testbit mask b = true ->
         Z.testbit (ButtonPressed port' mask) b = true.
Proof.
  intros W Hb Hpr. rewrite (ButtonProcess_eq N port raw W).
  eexists. split; [reflexivity|].
  assert (Hd : Z.testbit (debouncedState (processed N port raw)) b = false).
  { cbn [debouncedState processed].
    apply (and_all_bit_false _ (normalized (pullType port) raw)).
    - lia.
    - apply (list_elem_of_lookup_2 _ (index port)).
      apply list_lookup_insert_eq.
      rewrite (wf_length _ _ W). exact (wf_index _ _ W).
    - rewrite normalized_testbit by exact Hb. rewrite Hpr. reflexivity. }
  split; [exact Hd|].
  intros mask Hold Hm.
  rewrite pressed_testbit, changed_testbit, Hd, Hold, Hm by lia.
  replace (b <? 8) with true by (symmetry; apply Z.ltb_lt; lia).
  reflexivity.
Qed.

Lemma X7_witness :
  wf 4 ring4 /\ 0 <= 1 < 8 /\ indicates_pressed (pullType ring4) 0xFD 1 = true
  /\ exists port',
       ButtonProcess 4 ring4 0xFD = Some port'
       /\ Z.testbit (debouncedState port') 1 = false.
Proof.
  assert (W : wf 4 ring4) by wf_concrete.
  assert (Hb : 0 <= 1 < 8) by lia.
  assert (Hpr : indicates_pressed (pullType ring4) 0xFD 1 = true)
    by reflexivity.
  refine (conj W (conj Hb (conj Hpr _))).
  destruct (X7_press_is_immediate 4 ring4 0xFD 1 W Hb Hpr)
    as (port' & Hp & Hd & _).
  exists port'. split; [exact Hp | exact Hd].
Defined.

(** X8: a sample that indicates pressed on a bit keeps the debounced bit
    at 0 during the call that takes it and the MAX_BUTTON_CHECKS - 1 calls
    after it, whatever those later samples are. *)
Theorem X8_press_is_held N port s (rest : list Z) b :
  wf N port -> 0 <= b < 8 ->
  indicates_pressed (pullType port) s b = true ->
  (length rest < N)%nat ->
  exists port',
    process_all N port (s :: rest) = Some port'
    /\ Z.testbit (debouncedState port') b = false.
Proof.
  intros W Hb Hpr Hlen.
  destruct (process_all_from_wf N (s :: rest) port W)
    as (port' & Hrun & W' & _ & _ & Hw & Hc).
  exists port'. split; [exact Hrun|].
  rewrite Hc by congruence.
  rewrite <- (and_all_window N port' W'), Hw.
  apply (and_all_bit_false _ (normalized (pullType port) s)).
  - lia.
  - unfold recent. rewrite length_app, (window_length N port W).
    cbn [fmap list_fmap length]. rewrite length_fmap.
    rewrite drop_app_le by (rewrite (window_length N port W); lia).
    apply elem_of_app. right. apply elem_of_cons. left. reflexivity.
  - rewrite normalized_testbit by exact Hb. rewrite Hpr. reflexivity.
Qed.

Lemma X8_witness :
  wf 4 ring4 /\ 0 <= 2 < 8 /\ indicates_pressed (pullType ring4) 0xFB 2 = true
  /\ (length [0xFF; 0xFF; 0xFF] < 4)%nat
  /\ exists port',
       process_all 4 ring4 [0xFB; 0xFF; 0xFF; 0xFF] = Some port'
       /\ Z.testbit (debouncedState port') 2 = false.
Proof.
  assert (W : wf 4 ring4) by wf_concrete.
  assert (Hb : 0 <= 2 < 8) by lia.
  assert (Hpr : indicates_pressed (pullType ring4) 0xFB 2 = true)
    by reflexivity.
  assert (Hlen : (length [0xFF; 0xFF; 0xFF] < 4)%nat) by (cbn; lia).
  refine (conj W (conj Hb (conj Hpr (conj Hlen _)))).
  exact (X8_press_is_held 4 ring4 0xFB [0xFF; 0xFF; 0xFF] 2 W Hb Hpr Hlen).
Defined.

(** X9: from any well-formed structure and after at least
    MAX_BUTTON_CHECKS calls, a debounced bit is 1 (at rest) exactly when
    the last MAX_BUTTON_CHECKS samples all indicated at rest on that bit:
    that many quiet samples in a row always release the bit. *)
Theorem X9_release_after_full_window N port (samples : list Z) b :
  wf N port -> 0 <= b < 8 -> (N <= length samples)%nat ->
  exists port',
    process_all N port samples = Some port'
    /\ (Z.testbit (debouncedState port') b = true
        <-> Forall (fun s => indicates_pressed (pullType port) s b = false)
                   (recent N samples)).
Proof.
  intros W Hb Hlen.
  assert (Hne : samples <> []).
  { intros ->. pose proof (wf_index _ _ W). cbn in Hlen. lia. }
  destruct (process_all_from_wf N samples port W)
    as (port' & Hrun & W' & _ & _ & Hw & Hc).
  exists port'. split; [exact Hrun|].
  rewrite (Hc Hne), <- (and_all_window N port' W'), Hw.
  rewrite recent_app_ge, recent_fmap by (rewrite length_fmap; lia).
  rewrite and_all_testbit by lia.
  replace (b <? 8) with true by (symmetry; apply Z.ltb_lt; lia).
  cbn [andb]. rewrite forallb_testbit_Forall, Forall_fmap.
  apply Forall_proper; [|reflexivity].
  intros s. cbn. rewrite normalized_testbit by exact Hb.
  apply negb_true_iff.
Qed.

Lemma X9_witness :
  wf 4 ring4 /\ 0 <= 0 < 8 /\ (4 <= length [0xFF; 0xFF; 0xFF; 0xFF])%nat
  /\ exists port',
       process_all 4 ring4 [0xFF; 0xFF; 0xFF; 0xFF] = Some port'
       /\ (Z.testbit (debouncedState port') 0 = true
           <-> Forall (fun s => indicates_pressed (pullType ring4) s 0 = false)
                      (recent 4 [0xFF; 0xFF; 0xFF; 0xFF])).
Proof.
  assert (W : wf 4 ring4) by wf_concrete.
  assert (Hb : 0 <= 0 < 8) by lia.
  assert (Hlen : (4 <= length [0xFF; 0xFF; 0xFF; 0xFF])%nat) by (cbn; lia).
  refine (conj W (conj Hb (conj Hlen _))).
  exact (X9_release_after_full_window 4 ring4 [0xFF; 0xFF; 0xFF; 0xFF] 0
           W Hb Hlen).
Defined.

(** ** The eight bits, the initial state and the sample depth *)

(** X10: the buttons do not interfere: when two instances have the same
    pull configuration bit for a button and are fed samples that agree on
    that button's bit, their debounced states and their
    [ButtonDebounceStateGet] outputs agree on that bit, whatever the other
    seven bits of the configurations and of the samples are. *)
Theorem X10_bits_are_independent N portA portB pullA pullB
    (samplesA samplesB : list Z) b :
  allocated N portA -> allocated N portB -> (0 < N)%nat ->
  is_u8 pullA -> is_u8 pullB -> 0 <= b < 8 ->
  Z.testbit pullA b = Z.testbit pullB b ->
  Forall2 (fun x y => Z.testbit x b = Z.testbit y b) samplesA samplesB ->
  exists pa pb,
    run N portA pullA samplesA = Some pa
    /\ run N portB pullB samplesB = Some pb
    /\ Z.testbit (debouncedState pa) b = Z.testbit (debouncedState pb) b
    /\ Z.testbit (ButtonDebounceStateGet pa) b
       = Z.testbit (ButtonDebounceStateGet pb) b.
Proof.
  intros HaA HaB HN HpA HpB Hb Hpull Hsame.
  destruct (run_debounced_bit N portA pullA samplesA b HaA HN HpA Hb)
    as (pa & HrunA & _ & HpullA & HbitA).
  destruct (run_debounced_bit N portB pullB samplesB b HaB HN HpB Hb)
    as (pb & HrunB & _ & HpullB & HbitB).
  exists pa, pb. split; [exact HrunA|]. split; [exact HrunB|].
  assert (Hdeb : Z.testbit (debouncedState pa) b
                 = Z.testbit (debouncedState pb) b).
  { rewrite HbitA, HbitB. unfold recent.
    rewrite (Forall2_length _ _ _ Hsame).
    pose proof (Forall2_drop _ _ _ (length samplesB - N) Hsame) as Hd.
    induction Hd as [|x y l k Hxy _ IH]; [reflexivity|].
    cbn [forallb]. rewrite IH. f_equal.
    unfold indicates_pressed. rewrite Hxy, Hpull. reflexivity. }
  split; [exact Hdeb|].
  rewrite !state_get_testbit by exact Hb.
  rewrite HpullA, HpullB, Hpull, Hdeb. reflexivity.
Qed.

Lemma X10_witness :
  allocated 4 port4 /\ allocated 4 ring4 /\ (0 < 4)%nat
  /\ is_u8 0xF1 /\ is_u8 0x0F /\ 0 <= 0 < 8
  /\ Z.testbit 0xF1 0 = Z.testbit 0x0F 0
  /\ Forall2 (fun x y => Z.testbit x 0 = Z.testbit y 0)
             [0x10; 0x33] [0xAA; 0x01]
  /\ exists pa pb,
       run 4 port4 0xF1 [0x10; 0x33] = Some pa
       /\ run 4 ring4 0x0F [0xAA; 0x01] = Some pb
       /\ Z.testbit (debouncedState pa) 0 = Z.testbit (debouncedState pb) 0
       /\ Z.testbit (ButtonDebounceStateGet pa) 0
          = Z.testbit (ButtonDebounceStateGet pb) 0.
Proof.
  assert (HaA : allocated 4 port4) by (split; [lia | reflexivity]).
  assert (HaB : allocated 4 ring4) by (split; [lia | reflexivity]).
  assert (HN : (0 < 4)%nat) by lia.
  assert (HpA : is_u8 0xF1) by (unfold is_u8; lia).
  assert (HpB : is_u8 0x0F) by (unfold is_u8; lia).
  assert (Hb : 0 <= 0 < 8) by lia.
  assert (Hpull : Z.testbit 0xF1 0 = Z.testbit 0x0F 0) by reflexivity.
  assert (Hsame : Forall2 (fun x y => Z.testbit x 0 = Z.testbit y 0)
                          [0x10; 0x33] [0xAA; 0x01])
    by (repeat constructor).
  refine (conj HaA (conj HaB (conj HN (conj HpA (conj HpB (conj Hb
            (conj Hpull (conj Hsame _)))))))).
  exact (X10_bits_are_independent 4 port4 ring4 0xF1 0x0F
           [0x10; 0x33] [0xAA; 0x01] 0 HaA HaB HN HpA HpB Hb Hpull Hsame).
Defined.

(** X11: right after [ButtonDebounceInit], before any sample is taken,
    [ButtonDebounceStateGet] returns the pull configuration itself: every
    button reads as at rest in the electrical sense of its line. *)
Theorem X11_initial_state_reads_pull N port pulled :
  allocated N port -> is_u8 pulled ->
  exists port',
    ButtonDebounceInit N port pulled = Some port'
    /\ ButtonDebounceStateGet port' = pulled.
Proof.
  intros Ha Hp. rewrite (ButtonDebounceInit_eq N port pulled Ha).
  eexists. split; [reflexivity|].
  unfold ButtonDebounceStateGet. cbn [debouncedState pullType].
  apply Z.bits_inj'. intros b Hb.
  rewrite u8_testbit, Z.lnot_spec, Z.lxor_spec, testbit_255 by exact Hb.
  destruct (Z.ltb_spec b 8) as [Hlt|Hge].
  - cbn [andb xorb]. apply negb_involutive.
  - rewrite (is_u8_testbit_high pulled b Hp Hge). reflexivity.
Qed.

Lemma X11_witness :
  allocated 4 port4 /\ is_u8 0xA5
  /\ exists port',
       ButtonDebounceInit 4 port4 0xA5 = Some port'
       /\ ButtonDebounceStateGet port' = 0xA5.
Proof.
  assert (Ha : allocated 4 port4) by (split; [lia | reflexivity]).
  assert (Hp : is_u8 0xA5) by (unfold is_u8; lia).
  refine (conj Ha (conj Hp _)).
  exact (X11_initial_state_reads_pull 4 port4 0xA5 Ha Hp).
Defined.

(** a [uint8_t] counter never reaches a bound above 255 *)
Lemma for_u8_overflow {A : Type} bound (body : nat -> A -> option A) :
  (255 < bound)%nat ->
  forall fuel i a, (i + fuel <= 256)%nat -> for_u8 fuel bound body i a = None.
Proof.
  intros Hbig. induction fuel as [|fuel IH]; intros i a Hi; cbn [for_u8].
  - reflexivity.
  - destruct (decide (i < bound)%nat) as [_|Hge]; [|lia].
    destruct (body i a) as [a'|]; [|reflexivity].
    apply IH. pose proof (Nat.Div0.mod_le (i + 1) 256). lia.
Qed.

(** X12: with a sample depth MAX_BUTTON_CHECKS above 255, neither
    [ButtonDebounceInit] nor [ButtonProcess] ever returns normally: their
    [uint8_t] loop counter wraps before it reaches the bound. *)
Theorem X12_depth_above_255_never_returns N port pulled raw :
  (255 < N)%nat ->
  ButtonDebounceInit N port pulled = None
  /\ ButtonProcess N port raw = None.
Proof.
  intros Hbig. split.
  - unfold ButtonDebounceInit.
    rewrite (for_u8_overflow N init_body Hbig) by (unfold u8_fuel; lia).
    reflexivity.
  - unfold ButtonProcess.
    destruct (decide (index port < length (state port))%nat);
      [|reflexivity].
    rewrite for_u8_overflow by (exact Hbig || (unfold u8_fuel; lia)).
    reflexivity.
Qed.

Lemma X12_witness :
  (255 < 256)%nat
  /\ ButtonDebounceInit 256 (mkDebouncer (replicate 256 0) 0 0 0 0) 0xFF = None
  /\ ButtonProcess 256 (mkDebouncer (replicate 256 0) 0 0 0 0) 0xFE = None.
Proof.
  assert (Hbig : (255 < 256)%nat) by lia.
  split; [exact Hbig|].
  exact (X12_depth_above_255_never_returns 256
           (mkDebouncer (replicate 256 0) 0 0 0 0) 0xFF 0xFE Hbig).
Defined.

(** ** The release edge *)

Lemma process_all_app N (l1 l2 : list Z) : forall port,
  process_all N port (l1 ++ l2)
  = match process_all N port l1 with
    | Some port' => process_all N port' l2
    | None => None
    end.
Proof.
  induction l1 as [|s l1 IH]; intros port; cbn [app process_all].
  - reflexivity.
  - destruct (ButtonProcess N port s) as [port'|]; [apply IH | reflexivity].
Qed.

(** X13: when a sample that indicates pressed on a bit is followed by
    MAX_BUTTON_CHECKS samples that all indicate at rest on it, the last of
    these calls is the one in which [ButtonReleased] reports the bit, for
    every mask that holds it: until then the debounced bit is still 0,
    and after it the bit is 1. *)
Theorem X13_release_is_reported_after_full_window N port s
    (quiet : list Z) q mask b :
  wf N port -> 0 <= b < 8 ->
  indicates_pressed (pullType port) s b = true ->
  length (quiet ++ [q]) = N ->
  Forall (fun x => indicates_pressed (pullType port) x b = false)
         (quiet ++ [q]) ->
  Z.testbit mask b = true ->
  exists before after,
    process_all N port (s :: quiet) = Some before
    /\ ButtonProcess N before q = Some after
    /\ process_all N port (s :: quiet ++ [q]) = Some after
    /\ Z.testbit (debouncedState before) b = false
    /\ Z.testbit (debouncedState after) b = true
    /\ Z.testbit (ButtonReleased after mask) b = true.
Proof.
  intros W Hb Hpr Hlen Hquiet Hmask.
  rewrite length_app in Hlen. cbn [length] in Hlen.
  apply Forall_app in Hquiet as [Hfront Hq].
  apply Forall_cons in Hq as [Hq _].
  destruct (process_all_from_wf N (s :: quiet) port W)
    as (p1 & Hr1 & W1 & Hp1 & _ & Hw1 & Hc1).
  exists p1, (processed N p1 q).
  assert (Hwin : window p1 = normalized (pullType port) <$> (s :: quiet)).
  { rewrite Hw1, recent_app_ge by (rewrite length_fmap; cbn [length]; lia).
    apply recent_all. rewrite length_fmap. cbn [length]. lia. }
  assert (Hbefore : Z.testbit (debouncedState p1) b = false).
  { rewrite Hc1 by congruence.
    rewrite <- (and_all_window N p1 W1), Hwin.
    apply (and_all_bit_false _ (normalized (pullType port) s)).
    - lia.
    - cbn [fmap list_fmap]. apply elem_of_cons. left. reflexivity.
    - rewrite normalized_testbit by exact Hb. rewrite Hpr. reflexivity. }
  assert (Hafter : Z.testbit (debouncedState (processed N p1 q)) b = true).
  { change (debouncedState (processed N p1 q))
      with (and_all (state (processed N p1 q))).
    rewrite <- (and_all_window N _ (processed_wf N p1 q W1)).
    rewrite (window_processed N p1 q W1), Hwin, Hp1.
    cbn [fmap list_fmap drop]. rewrite drop_0.
    rewrite and_all_testbit by lia.
    replace (b <? 8) with true by (symmetry; apply Z.ltb_lt; lia).
    cbn [andb]. apply forallb_testbit_Forall.
    apply Forall_app. split.
    - apply Forall_fmap. apply (Forall_impl _ _ _ Hfront).
      intros x Hx. cbn. rewrite normalized_testbit by exact Hb.
      rewrite Hx. reflexivity.
    - constructor; [|constructor].
      rewrite normalized_testbit by exact Hb. rewrite Hq. reflexivity. }
  split; [exact Hr1|].
  split; [exact (ButtonProcess_eq N p1 q W1)|].
  split.
  { change (s :: quiet ++ [q]) with ((s :: quiet) ++ [q]).
    rewrite process_all_app, Hr1. cbn [process_all].
    rewrite (ButtonProcess_eq N p1 q W1). reflexivity. }
  split; [exact Hbefore|]. split; [exact Hafter|].
  rewrite released_testbit, changed_testbit, Hafter, Hbefore, Hmask by lia.
  replace (b <? 8) with true by (symmetry; apply Z.ltb_lt; lia).
  reflexivity.
Qed.

Lemma X13_witness :
  wf 4 ring4 /\ 0 <= 0 < 8
  /\ indicates_pressed (pullType ring4) 0xFE 0 = true
  /\ length ([0xFF; 0xFF; 0xFF] ++ [0xFF]) = 4%nat
  /\ Forall (fun x => indicates_pressed (pullType ring4) x 0 = false)
            ([0xFF; 0xFF; 0xFF] ++ [0xFF])
  /\ Z.testbit 0x01 0 = true
  /\ exists before after,
       process_all 4 ring4 [0xFE; 0xFF; 0xFF; 0xFF] = Some before
       /\ ButtonProcess 4 before 0xFF = Some after
       /\ Z.testbit (ButtonReleased after 0x01) 0 = true.
Proof.
  assert (W : wf 4 ring4) by wf_concrete.
  assert (Hb : 0 <= 0 < 8) by lia.
  assert (Hpr : indicates_pressed (pullType ring4) 0xFE 0 = true)
    by reflexivity.
  assert (Hlen : length ([0xFF; 0xFF; 0xFF] ++ [0xFF]) = 4%nat)
    by reflexivity.
  assert (Hquiet : Forall (fun x => indicates_pressed (pullType ring4) x 0
                                    = false)
                          ([0xFF; 0xFF; 0xFF] ++ [0xFF]))
    by (repeat constructor).
  assert (Hmask : Z.testbit 0x01 0 = true) by reflexivity.
  refine (conj W (conj Hb (conj Hpr (conj Hlen (conj Hquiet
            (conj Hmask _)))))).
  destruct (X13_release_is_reported_after_full_window 4 ring4 0xFE
              [0xFF; 0xFF; 0xFF] 0xFF 0x01 0 W Hb Hpr Hlen Hquiet Hmask)
    as (before & after & H1 & H2 & _ & _ & _ & H3).
  exists before, after. split; [exact H1|]. split; [exact H2 | exact H3].
Defined.

(** X14: the edge reports of several buttons can be asked for at once:
    for every structure, the report for the union of two masks is the
    union of the reports for each, for [ButtonPressed] and for
    [ButtonReleased]. *)
Theorem X14_reports_of_a_union_of_masks port m1 m2 :
  ButtonPressed port (Z.lor m1 m2)
  = Z.lor (ButtonPressed port m1) (ButtonPressed port m2)
  /\ ButtonReleased port (Z.lor m1 m2)
     = Z.lor (ButtonReleased port m1) (ButtonReleased port m2).
Proof.
  split; apply Z.bits_inj'; intros b Hb;
    rewrite Z.lor_spec, ?pressed_testbit, ?released_testbit, Z.lor_spec
      by exact Hb;
    bool_cases.
Qed.
